(** * pdf_extractor.py: a shallow embedding and its verified properties

    The script wraps three PDF libraries (pdfplumber, PyPDF2, pikepdf) in
    [try]/[except] functions, chooses one of their results by a length
    threshold and prints a JSON summary.  The libraries and the file system
    are the environment of the script: they are gathered in a record
    [World], and everything the script itself does is translated below
    function by function.

    What is taken from the environment:
    - the three libraries are importable, and a call into one of them
      either yields a value or raises an exception derived from
      [Exception], whose [str] is the message;
    - [Path(p).exists()] answers [True] or [False], or raises the
      [OSError] of a lookup that fails for another reason than the
      absence of the path (a name too long, a directory that may not be
      searched);
    - [print(json.dumps(d))] writes the document [d]; the document is kept
      as a JSON value rather than as its text. *)

From Stdlib Require Import List NArith ZArith Bool String Ascii Lia.
From Stdlib Require Import DecimalString Sorted.
Import ListNotations.

(** ** Python strings

    A Python [str] is a sequence of Unicode code points; [len] counts code
    points. *)

Definition pystr := list N.

Definition lit (s : string) : pystr :=
  map N_of_ascii (list_ascii_of_string s).

Definition len (s : pystr) : nat := List.length s.

(** Truth value of a string: the empty string is the only false one. *)
Definition truthy (s : pystr) : bool :=
  match s with
  | [] => false
  | _ :: _ => true
  end.

(** [a == b] on strings. *)
Fixpoint str_eqb (a b : pystr) : bool :=
  match a, b with
  | [], [] => true
  | x :: a', y :: b' => (x =? y)%N && str_eqb a' b'
  | _, _ => false
  end.

(** [str.isspace] on one code point, the set [str.strip()] removes:
    U+0009..U+000D, U+001C..U+0020, U+0085, U+00A0, U+1680,
    U+2000..U+200A, U+2028, U+2029, U+202F, U+205F, U+3000. *)
Definition isspace (c : N) : bool :=
  ((9 <=? c) && (c <=? 13) ||
   (28 <=? c) && (c <=? 32) ||
   (c =? 133) || (c =? 160) || (c =? 5760) ||
   (8192 <=? c) && (c <=? 8202) ||
   (c =? 8232) || (c =? 8233) || (c =? 8239) || (c =? 8287) ||
   (c =? 12288))%N.

Fixpoint lstrip (s : pystr) : pystr :=
  match s with
  | [] => []
  | c :: r => if isspace c then lstrip r else s
  end.

Definition rstrip (s : pystr) : pystr := rev (lstrip (rev s)).

(** [s.strip()]: whitespace is removed at both ends. *)
Definition strip (s : pystr) : pystr := rstrip (lstrip s).

(** [sep.join(l)] *)
Fixpoint join (sep : pystr) (l : list pystr) : pystr :=
  match l with
  | [] => []
  | [x] => x
  | x :: r => x ++ sep ++ join sep r
  end.

(** [str(n)] for a non-negative integer. *)
Definition str_of_nat (n : nat) : pystr :=
  lit (NilEmpty.string_of_uint (Nat.to_uint n)).

(** ** JSON values handed to [json.dumps] *)

#[warnings="-register-all"] Inductive json : Type :=
| JBool (b : bool)
| JInt (z : Z)
| JStr (s : pystr)
| JList (l : list json)
| JObj (fields : list (pystr * json)).

(** ** Dictionaries

    [results] is a [dict]: keys are kept in insertion order, and
    assigning to a key that is present replaces its value in place. *)

Definition dict (V : Type) := list (pystr * V).

Fixpoint dict_set {V} (d : dict V) (k : pystr) (v : V) : dict V :=
  match d with
  | [] => [(k, v)]
  | (k', v') :: r =>
      if str_eqb k' k then (k', v) :: r else (k', v') :: dict_set r k v
  end.

Fixpoint dict_find {V} (d : dict V) (k : pystr) : option V :=
  match d with
  | [] => None
  | (k', v') :: r => if str_eqb k' k then Some v' else dict_find r k
  end.

(** [d.get(k, default)] *)
Definition dict_get {V} (d : dict V) (k : pystr) (default : V) : V :=
  match dict_find d k with
  | Some v => v
  | None => default
  end.

(** [list(d.keys())] *)
Definition dict_keys {V} (d : dict V) : list pystr := map fst d.

(** ** Control flow and effects

    What can interrupt a computation: an exception derived from
    [Exception], carrying [str(e)], or the [SystemExit] of [sys.exit]. *)

Inductive raised : Type :=
| Exception (msg : pystr)
| SystemExit (code : Z).

Inductive result (A : Type) : Type :=
| Normal (a : A)
| Raised (e : raised).

Arguments Normal {A} a.
Arguments Raised {A} e.

Inductive backend : Type := Pdfplumber | PyPDF2 | Pikepdf.

(** What the script does to the outside: it asks whether a path exists,
    starts reading a path for a backend ([pdfplumber.open], [open] and
    [PyPDF2.PdfReader], [pikepdf.open]), prints a JSON document. *)
Inductive event : Type :=
| EvExists (path : pystr)
| EvOpen (b : backend) (path : pystr)
| EvPrint (doc : json).

(** A computation yields the events it performed, in order, and how it
    ended. *)
Definition M (A : Type) : Type := list event * result A.

Definition ret {A} (a : A) : M A := ([], Normal a).

Definition raise {A} (e : raised) : M A := ([], Raised e).

Definition emit (e : event) : M unit := ([e], Normal tt).

Definition bind {A B} (m : M A) (f : A -> M B) : M B :=
  match m with
  | (t, Normal a) => let (t', r) := f a in (t ++ t', r)
  | (t, Raised e) => (t, Raised e)
  end.

Declare Scope py_scope.
Delimit Scope py_scope with py.
Notation "x <- m ;; k" := (bind m (fun x => k))
  (at level 61, m at next level, right associativity) : py_scope.
Notation "m ;;; k" := (bind m (fun _ => k))
  (at level 61, right associativity) : py_scope.
Open Scope py_scope.

(** [try: body  except Exception as e: handler(str(e))] : a [SystemExit]
    is not an [Exception] and passes through. *)
Definition try_except {A} (body : M A) (handler : pystr -> M A) : M A :=
  match body with
  | (t, Raised (Exception msg)) => let (t', r) := handler msg in (t ++ t', r)
  | other => other
  end.

(** [for x in l: acc = body(acc, x)] *)
Fixpoint for_each {A S} (l : list A) (body : S -> A -> M S) (acc : S) : M S :=
  match l with
  | [] => ret acc
  | x :: r => acc' <- body acc x ;; for_each r body acc'
  end.

(** The outcome of a library call: a value, or an exception with its
    message. *)
Definition lib (A : Type) : Type := (A + pystr)%type.

Definition call {A} (r : lib A) : M A :=
  match r with
  | inl a => ret a
  | inr msg => raise (Exception msg)
  end.

(** [l[i]] *)
Definition getitem {A} (l : list A) (i : nat) : M A :=
  match nth_error l i with
  | Some a => ret a
  | None => raise (Exception (lit "list index out of range"))
  end.

(** [d[k]]; the message of a [KeyError] is the key between quotes. *)
Definition dict_getitem {V} (d : dict V) (k : pystr) : M V :=
  match dict_find d k with
  | Some v => ret v
  | None => raise (Exception (lit "'" ++ k ++ lit "'"))
  end.

(** ** The environment *)

Inductive node : Type :=
| File (content : list N)
| Directory.

(** The file system maps a path to what is found there, if anything.
    For a path at which nothing is found, [stat_error] tells whether the
    lookup fails with an [OSError] that [Path.exists] lets through, and
    gives its message; [None] stands for a plain absence (ENOENT,
    ENOTDIR, EBADF, ELOOP).  Each library is a function of the path it is
    given and of what the file system holds there: opening yields the
    pages or raises, and so does the call made on each page.
    - pdfplumber: [page.extract_text()] yields a string or [None];
    - PyPDF2: [open(p, 'rb')] and [PdfReader] are taken together,
      [page.extract_text()] yields a string;
    - pikepdf: ['/Contents' in page] yields a boolean. *)
Record World : Type := {
  fs : pystr -> option node;
  stat_error : pystr -> option pystr;
  pdfplumber_open : pystr -> option node -> lib (list (lib (option pystr)));
  pypdf2_reader : pystr -> option node -> lib (list (lib pystr));
  pikepdf_open : pystr -> option node -> lib (list (lib bool))
}.

(** [Path(p).exists()]: [True] when the lookup finds something, [False]
    when it reports a plain absence; any other [OSError] is raised. *)
Definition path_exists (w : World) (p : pystr) : M bool :=
  emit (EvExists p) ;;;
  match fs w p with
  | Some _ => ret true
  | None =>
      match stat_error w p with
      | None => ret false
      | Some msg => raise (Exception msg)
      end
  end.

(** ** The three backends *)

Section Backends.

Variable w : World.

Definition nlnl : pystr := lit (String "010" (String "010" EmptyString)).
Definition nl : pystr := lit (String "010" EmptyString).

(** [extract_with_pyPDF2], lines 9-19. *)
Definition extract_with_pyPDF2 (pdf_path : pystr) : M pystr :=
  try_except
    (emit (EvOpen PyPDF2 pdf_path) ;;;
     pages <- call (pypdf2_reader w pdf_path (fs w pdf_path)) ;;
     text <- for_each pages
               (fun text page =>
                  t <- call page ;;
                  ret (text ++ (t ++ nlnl)))
               [] ;;
     ret (strip text))
    (fun e => ret (lit "PyPDF2 Error: " ++ e)).

(** [extract_with_pdfplumber], lines 21-32. *)
Definition extract_with_pdfplumber (pdf_path : pystr) : M pystr :=
  try_except
    (emit (EvOpen Pdfplumber pdf_path) ;;;
     pages <- call (pdfplumber_open w pdf_path (fs w pdf_path)) ;;
     text <- for_each pages
               (fun text page =>
                  page_text <- call page ;;
                  match page_text with
                  | Some t => if truthy t then ret (text ++ (t ++ nlnl))
                              else ret text
                  | None => ret text
                  end)
               [] ;;
     ret (strip text))
    (fun e => ret (lit "PDFPlumber Error: " ++ e)).

(** [extract_with_pikepdf], lines 34-46. *)
Definition extract_with_pikepdf (pdf_path : pystr) : M pystr :=
  try_except
    (emit (EvOpen Pikepdf pdf_path) ;;;
     pages <- call (pikepdf_open w pdf_path (fs w pdf_path)) ;;
     text <- for_each (seq 0 (List.length pages))
               (fun text page_num =>
                  page <- getitem pages page_num ;;
                  has_contents <- call page ;;
                  if (has_contents : bool)
                  then ret (text ++ (lit "Page " ++ str_of_nat (page_num + 1)
                                       ++ lit " - Content available" ++ nl))
                  else ret text)
               [] ;;
     ret (if truthy text then strip text
          else lit "No extractable text found with pikepdf"))
    (fun e => ret (lit "PikePDF Error: " ++ e)).

(** ** [main], lines 48-79 *)

Definition main (argv : list pystr) : M unit :=
  (if negb (List.length argv =? 2)%nat
   then emit (EvPrint (JObj [(lit "error",
                              JStr (lit "Please provide PDF file path"))])) ;;;
        raise (SystemExit 1)
   else ret tt) ;;;
  pdf_path <- getitem argv 1 ;;
  present <- path_exists w pdf_path ;;
  (if negb present
   then emit (EvPrint (JObj [(lit "error",
                              JStr (lit "File not found: " ++ pdf_path))])) ;;;
        raise (SystemExit 1)
   else ret tt) ;;;
  let results : dict pystr := [] in
  r <- extract_with_pdfplumber pdf_path ;;
  let results := dict_set results (lit "pdfplumber") r in
  primary <- dict_getitem results (lit "pdfplumber") ;;
  results <-
    (if negb (truthy primary) || (len primary <? 100)%nat
     then r2 <- extract_with_pyPDF2 pdf_path ;;
          let results := dict_set results (lit "pypdf2") r2 in
          r3 <- extract_with_pikepdf pdf_path ;;
          ret (dict_set results (lit "pikepdf") r3)
     else ret results) ;;
  best_result <- dict_getitem results (lit "pdfplumber") ;;
  let best_result :=
    if negb (truthy best_result) || (len best_result <? 100)%nat
    then (let a := dict_get results (lit "pypdf2") [] in
          if truthy a then a else dict_get results (lit "pikepdf") [])
    else best_result in
  emit (EvPrint (JObj [(lit "success", JBool true);
                       (lit "text", JStr best_result);
                       (lit "length", JInt (Z.of_nat (len best_result)));
                       (lit "methods_used",
                        JList (map JStr (dict_keys results)))])).

End Backends.

(** ** Running the script *)

Record outcome : Type := {
  events : list event;
  exit_status : Z
}.

(** The interpreter exits with 0 when [main] returns, with the code of a
    [SystemExit], and with 1 when an exception is left uncaught. *)
Definition run (w : World) (argv : list pystr) : outcome :=
  let (t, r) := main w argv in
  {| events := t;
     exit_status := match r with
                    | Normal _ => 0
                    | Raised (SystemExit c) => c
                    | Raised (Exception _) => 1
                    end |}.

Fixpoint printed (t : list event) : list json :=
  match t with
  | [] => []
  | EvPrint d :: r => d :: printed r
  | _ :: r => printed r
  end.

Definition stdout (o : outcome) : list json := printed (events o).

Fixpoint opened (t : list event) : list backend :=
  match t with
  | [] => []
  | EvOpen b _ :: r => b :: opened r
  | _ :: r => opened r
  end.

(** The field [k] of a JSON object. *)
Definition field (k : string) (j : json) : option json :=
  match j with
  | JObj fields => dict_find fields (lit k)
  | _ => None
  end.

(** * Vocabulary of the statements *)

Definition starts_with_space (s : pystr) : bool :=
  match s with
  | c :: _ => isspace c
  | [] => false
  end.

Definition ends_with_space (s : pystr) : bool :=
  starts_with_space (rev s).

(** [m] ends normally with the value [a]. *)
Definition returns {A} (m : M A) (a : A) : Prop := snd m = Normal a.

(** The values of a sequence of calls made one after the other, or the
    message of the first one that raises. *)
Fixpoint collect {A} (l : list (lib A)) : lib (list A) :=
  match l with
  | [] => inl []
  | inl a :: r =>
      match collect r with
      | inl v => inl (a :: v)
      | inr e => inr e
      end
  | inr e :: _ => inr e
  end.

(** What a library gives for a path: the value of every page, or the
    message of the first failure, be it on opening or on a page. *)
Definition pages_of {A} (o : lib (list (lib A))) : lib (list A) :=
  match o with
  | inl pages => collect pages
  | inr e => inr e
  end.

(** Every text followed by [sep], one after the other. *)
Definition terminated (sep : pystr) (l : list pystr) : pystr :=
  List.concat (map (fun t => t ++ sep) l).

(** The page texts that are neither [None] nor empty. *)
Definition visible (pages : list (option pystr)) : list pystr :=
  flat_map (fun o => match o with
                     | Some t => if truthy t then [t] else []
                     | None => []
                     end) pages.

Definition page_line (n : nat) : pystr :=
  lit "Page " ++ str_of_nat n ++ lit " - Content available".

(** The numbers, counted from 1, of the pages that have contents, for the
    pages from index [k] on. *)
Fixpoint content_pages (k : nat) (flags : list bool) : list nat :=
  match flags with
  | [] => []
  | b :: r => (if b then [k + 1] else []) ++ content_pages (S k) r
  end.

Definition pdfplumber_text (w : World) (p : pystr) : pystr :=
  match pages_of (pdfplumber_open w p (fs w p)) with
  | inl pages => strip (terminated nlnl (visible pages))
  | inr e => lit "PDFPlumber Error: " ++ e
  end.

Definition pypdf2_text (w : World) (p : pystr) : pystr :=
  match pages_of (pypdf2_reader w p (fs w p)) with
  | inl texts => strip (terminated nlnl texts)
  | inr e => lit "PyPDF2 Error: " ++ e
  end.

Definition pikepdf_text (w : World) (p : pystr) : pystr :=
  match pages_of (pikepdf_open w p (fs w p)) with
  | inl flags =>
      match content_pages 0 flags with
      | [] => lit "No extractable text found with pikepdf"
      | ns => join nl (map page_line ns)
      end
  | inr e => lit "PikePDF Error: " ++ e
  end.

(** The documents [main] prints. *)
Definition usage_error : json :=
  JObj [(lit "error", JStr (lit "Please provide PDF file path"))].

Definition not_found_error (p : pystr) : json :=
  JObj [(lit "error", JStr (lit "File not found: " ++ p))].

Definition methods_list (methods : list string) : json :=
  JList (map (fun m => JStr (lit m)) methods).

Definition success_doc (text : pystr) (methods : list string) : json :=
  JObj [(lit "success", JBool true);
        (lit "text", JStr text);
        (lit "length", JInt (Z.of_nat (len text)));
        (lit "methods_used", methods_list methods)].

(** What a failed library call leads to. *)
Definition on_failure {A} (o : lib A) (P : pystr -> Prop) : Prop :=
  match o with
  | inr e => P e
  | inl _ => True
  end.

(** The two worlds give the same answers about the path [p]. *)
Definition same_file (w1 w2 : World) (p : pystr) : Prop :=
  fs w1 p = fs w2 p /\ stat_error w1 p = stat_error w2 p.

(** The libraries of the two worlds are the same functions of the path and
    of what is stored there. *)
Definition same_libraries (w1 w2 : World) : Prop :=
  (forall p n, pdfplumber_open w1 p n = pdfplumber_open w2 p n) /\
  (forall p n, pypdf2_reader w1 p n = pypdf2_reader w2 p n) /\
  (forall p n, pikepdf_open w1 p n = pikepdf_open w2 p n).

(** The text of section 4.1 of the specification, read literally: the
    page texts with a blank line between them, whitespace removed at the
    end only. *)
Definition spec_page_text (texts : list pystr) : pystr :=
  rstrip (join nlnl texts).

(** * Sample environments *)

Definition prog : pystr := lit "pdf_extractor.py".
Definition sample_path : pystr := lit "invoice.pdf".
Definition other_path : pystr := lit "notes.txt".

(** A library that answers [r] for a regular file and raises otherwise. *)
Definition serving {A} (r : lib A) (p : pystr) (n : option node) : lib A :=
  match n with
  | Some (File _) => r
  | Some Directory => inr (lit "[Errno 21] Is a directory")
  | None => inr (lit "[Errno 2] No such file or directory")
  end.

Definition only_sample (p : pystr) : option node :=
  if str_eqb p sample_path then Some (File [37; 80; 68; 70]%N) else None.

(** A scanned invoice: pdfplumber finds a few characters, PyPDF2 a few
    more, and pikepdf sees contents on the first and third page. *)
Definition w_short : World :=
  {| fs := only_sample;
     stat_error := fun _ => None;
     pdfplumber_open := serving (inl [inl (Some (lit "Invoice 42"))]);
     pypdf2_reader := serving (inl [inl (lit "Invoice 42 total")]);
     pikepdf_open := serving (inl [inl true; inl false; inl true]) |}.

(** The same file next to another one. *)
Definition w_short_more : World :=
  {| fs := fun p => if str_eqb p other_path then Some Directory
                    else only_sample p;
     stat_error := fun _ => None;
     pdfplumber_open := pdfplumber_open w_short;
     pypdf2_reader := pypdf2_reader w_short;
     pikepdf_open := pikepdf_open w_short |}.

Definition long_text : pystr :=
  List.concat (repeat (lit "0123456789") 12).

(** A text document: pdfplumber extracts 120 characters on one page. *)
Definition w_long : World :=
  {| fs := only_sample;
     stat_error := fun _ => None;
     pdfplumber_open := serving (inl [inl (Some long_text)]);
     pypdf2_reader := serving (inl [inl long_text]);
     pikepdf_open := serving (inl [inl true]) |}.

(** A damaged file: every library raises, pdfplumber with a message of
    120 characters. *)
Definition w_broken : World :=
  {| fs := only_sample;
     stat_error := fun _ => None;
     pdfplumber_open := serving (inr long_text);
     pypdf2_reader := serving (inr (lit "EOF marker not found"));
     pikepdf_open := serving (inr (lit "unable to find trailer")) |}.

(** A page whose text starts with a space. *)
Definition w_indented : World :=
  {| fs := only_sample;
     stat_error := fun _ => None;
     pdfplumber_open := serving (inl [inl (Some (lit " Invoice 42"))]);
     pypdf2_reader := serving (inl [inl (lit " Invoice 42")]);
     pikepdf_open := serving (inl [inl true]) |}.

(** A file that is no PDF: every library raises, with short messages. *)
Definition w_unreadable : World :=
  {| fs := only_sample;
     stat_error := fun _ => None;
     pdfplumber_open := serving (inr (lit "No /Root object! - Is this really a PDF?"));
     pypdf2_reader := serving (inr (lit "EOF marker not found"));
     pikepdf_open := serving (inr (lit "unable to find trailer")) |}.

(** The scanned invoice behind a cover page without text. *)
Definition w_cover_page : World :=
  {| fs := only_sample;
     stat_error := fun _ => None;
     pdfplumber_open := serving (inl [inl None; inl (Some (lit "Invoice 42"))]);
     pypdf2_reader := serving (inl [inl []; inl (lit "Invoice 42 total")]);
     pikepdf_open := serving (inl [inl false; inl true]) |}.

(** Two pages of text. *)
Definition w_two_pages : World :=
  {| fs := only_sample;
     stat_error := fun _ => None;
     pdfplumber_open :=
       serving (inl [inl (Some (lit "Invoice 42")); inl (Some (lit "Total 10"))]);
     pypdf2_reader := serving (inl [inl (lit "Invoice 42"); inl (lit "Total 10")]);
     pikepdf_open := serving (inl [inl true; inl true]) |}.

(** Three pages, the second of which cannot be read. *)
Definition w_bad_page : World :=
  {| fs := only_sample;
     stat_error := fun _ => None;
     pdfplumber_open :=
       serving (inl [inl (Some (lit "Invoice 42")); inr (lit "bad page");
                     inl (Some (lit "Total 10"))]);
     pypdf2_reader :=
       serving (inl [inl (lit "Invoice 42"); inr (lit "bad page");
                     inl (lit "Total 10")]);
     pikepdf_open := serving (inl [inl true; inr (lit "bad page"); inl true]) |}.

(** Two pages that hold whitespace only. *)
Definition w_blank : World :=
  {| fs := only_sample;
     stat_error := fun _ => None;
     pdfplumber_open := serving (inl [inl (Some (lit " ")); inl None]);
     pypdf2_reader := serving (inl [inl (lit " "); inl []]);
     pikepdf_open := serving (inl [inl false; inl false]) |}.



(** * Properties *)

(** ** Stripping *)

Lemma lstrip_starts (s : pystr) : starts_with_space (lstrip s) = false.
Proof.
  induction s as [|c r IH]; simpl; trivial.
  destruct (isspace c) eqn:E; simpl; trivial.
Qed.

Lemma lstrip_id (s : pystr) : starts_with_space s = false -> lstrip s = s.
Proof.
  destruct s as [|c r]; simpl; trivial.
  now intros ->.
Qed.

Lemma lstrip_spaces (ws s : pystr) :
  forallb isspace ws = true -> lstrip (ws ++ s) = lstrip s.
Proof.
  induction ws as [|c r IH]; simpl; trivial.
  intros H. apply andb_true_iff in H as [-> Hr]. auto.
Qed.

Lemma lstrip_keeps_tail (a b : pystr) (c : N) :
  isspace c = false -> lstrip (a ++ c :: b) = lstrip a ++ c :: b.
Proof.
  intros Hc. induction a as [|x a IH]; simpl.
  - now rewrite Hc.
  - destruct (isspace x); auto.
Qed.

Lemma rstrip_ends (s : pystr) : ends_with_space (rstrip s) = false.
Proof.
  unfold ends_with_space, rstrip. rewrite rev_involutive. apply lstrip_starts.
Qed.

Lemma rstrip_spaces (s ws : pystr) :
  forallb isspace ws = true -> rstrip (s ++ ws) = rstrip s.
Proof.
  intros H. unfold rstrip. rewrite rev_app_distr, lstrip_spaces; trivial.
  rewrite forallb_forall in *. intros x Hx. apply H. now apply in_rev.
Qed.

Lemma rstrip_cons (c : N) (s : pystr) :
  isspace c = false -> rstrip (c :: s) = c :: rstrip s.
Proof.
  intros Hc. unfold rstrip. simpl rev at 2.
  rewrite lstrip_keeps_tail by assumption.
  rewrite rev_app_distr. reflexivity.
Qed.

Lemma rstrip_id (s : pystr) : ends_with_space s = false -> rstrip s = s.
Proof.
  unfold ends_with_space, rstrip. intros H.
  rewrite lstrip_id by assumption. apply rev_involutive.
Qed.

Lemma rstrip_starts (s : pystr) :
  starts_with_space s = false -> starts_with_space (rstrip s) = false.
Proof.
  destruct s as [|c r]; simpl; trivial.
  intros Hc. now rewrite rstrip_cons.
Qed.

Lemma strip_starts (s : pystr) : starts_with_space (strip s) = false.
Proof. apply rstrip_starts, lstrip_starts. Qed.

Lemma strip_ends (s : pystr) : ends_with_space (strip s) = false.
Proof. apply rstrip_ends. Qed.

(** A text that begins and ends with a visible character loses exactly the
    whitespace appended to it. *)
Lemma strip_appended (s ws : pystr) :
  starts_with_space s = false -> ends_with_space s = false ->
  forallb isspace ws = true -> s <> [] ->
  strip (s ++ ws) = s.
Proof.
  intros Hs He Hws Hne. unfold strip.
  rewrite lstrip_id.
  - rewrite rstrip_spaces by assumption. now apply rstrip_id.
  - destruct s; [congruence | exact Hs].
Qed.

(** ** Joining lines *)

Lemma terminated_nil (sep : pystr) : terminated sep [] = [].
Proof. reflexivity. Qed.

Lemma terminated_cons (sep t : pystr) (l : list pystr) :
  terminated sep (t :: l) = (t ++ sep) ++ terminated sep l.
Proof. reflexivity. Qed.

Lemma terminated_join (sep : pystr) (l : list pystr) :
  l <> [] -> terminated sep l = join sep l ++ sep.
Proof.
  induction l as [|x r IH]; [congruence | intros _].
  rewrite terminated_cons. destruct r as [|y r].
  - now rewrite terminated_nil, app_nil_r.
  - rewrite IH by discriminate.
    change (join sep (x :: y :: r)) with (x ++ sep ++ join sep (y :: r)).
    now rewrite <- !app_assoc.
Qed.

Lemma ends_with_space_app (a b : pystr) :
  b <> [] -> ends_with_space (a ++ b) = ends_with_space b.
Proof.
  intros Hb. unfold ends_with_space. rewrite rev_app_distr.
  destruct (rev b) as [|c r] eqn:E; trivial.
  apply (f_equal (@rev N)) in E. rewrite rev_involutive in E. now subst.
Qed.

Lemma join_starts (sep x : pystr) (r : list pystr) :
  x <> [] -> starts_with_space (join sep (x :: r)) = starts_with_space x.
Proof.
  intros Hx. destruct x as [|c x]; [congruence|]. now destruct r.
Qed.

Lemma join_nonempty (sep x : pystr) (r : list pystr) :
  x <> [] -> join sep (x :: r) <> [].
Proof.
  intros Hx. destruct x as [|c x]; [congruence|]. now destruct r.
Qed.

Lemma join_ends (sep : pystr) (l : list pystr) :
  l <> [] ->
  (forall x, In x l -> x <> [] /\ ends_with_space x = false) ->
  ends_with_space (join sep l) = false.
Proof.
  induction l as [|x r IH]; [congruence | intros _ H].
  destruct r as [|y r].
  - apply H. now left.
  - change (join sep (x :: y :: r)) with (x ++ sep ++ join sep (y :: r)).
    rewrite app_assoc, ends_with_space_app.
    + apply IH; [discriminate|]. intros z Hz. apply H. now right.
    + apply join_nonempty. apply (H y). right. now left.
Qed.

(** ** The loops of the backends *)

Lemma collect_map_inl {A} (l : list A) : collect (map inl l) = inl l.
Proof.
  induction l as [|a r IH]; simpl; trivial. now rewrite IH.
Qed.

Lemma page_line_eq (n : nat) :
  page_line n = lit "Page " ++ str_of_nat n ++ lit " - Content available".
Proof. reflexivity. Qed.

Lemma page_line_shape (n : nat) :
  page_line n <> [] /\
  starts_with_space (page_line n) = false /\
  ends_with_space (page_line n) = false.
Proof.
  repeat split.
  - discriminate.
  - replace (page_line n)
      with ((lit "Page " ++ str_of_nat n ++ lit " - Content availabl")
              ++ [101%N]).
    + now rewrite ends_with_space_app.
    + unfold page_line. now rewrite <- !app_assoc.
Qed.

Opaque terminated lit str_of_nat page_line.

Lemma pypdf2_loop (pages : list (lib pystr)) :
  forall acc,
    for_each pages
      (fun text page => t <- call page ;; ret (text ++ (t ++ nlnl))) acc
    = match collect pages with
      | inl texts => ([], Normal (acc ++ terminated nlnl texts))
      | inr e => ([], Raised (Exception e))
      end.
Proof.
  induction pages as [|page r IH]; intros acc; simpl.
  - unfold ret. now rewrite terminated_nil, app_nil_r.
  - destruct page as [t|e]; simpl; trivial.
    rewrite IH. destruct (collect r); simpl; trivial.
    now rewrite terminated_cons, !app_assoc.
Qed.

Lemma pdfplumber_loop (pages : list (lib (option pystr))) :
  forall acc,
    for_each pages
      (fun text page =>
         page_text <- call page ;;
         match page_text with
         | Some t => if truthy t then ret (text ++ (t ++ nlnl)) else ret text
         | None => ret text
         end) acc
    = match collect pages with
      | inl texts => ([], Normal (acc ++ terminated nlnl (visible texts)))
      | inr e => ([], Raised (Exception e))
      end.
Proof.
  induction pages as [|page r IH]; intros acc; simpl.
  - unfold ret. now rewrite terminated_nil, app_nil_r.
  - destruct page as [[t|]|e]; simpl; trivial.
    + destruct (truthy t) eqn:Ht; simpl; rewrite IH;
        destruct (collect r); simpl; trivial.
      * unfold visible. simpl. rewrite Ht. simpl.
        fold (visible l). now rewrite terminated_cons, !app_assoc.
      * unfold visible. simpl. now rewrite Ht.
    + rewrite IH. destruct (collect r); simpl; trivial.
Qed.

Lemma skipn_nth_error {A} (l : list A) :
  forall k x, nth_error l k = Some x -> skipn k l = x :: skipn (S k) l.
Proof.
  induction l as [|a r IH]; intros [|k] x H; simpl in *; try discriminate.
  - now inversion H.
  - now apply IH.
Qed.

Lemma pikepdf_loop (pages : list (lib bool)) :
  forall n k acc,
    k + n = List.length pages ->
    for_each (seq k n)
      (fun text page_num =>
         page <- getitem pages page_num ;;
         has_contents <- call page ;;
         if (has_contents : bool)
         then ret (text ++ (lit "Page " ++ str_of_nat (page_num + 1)
                              ++ lit " - Content available" ++ nl))
         else ret text) acc
    = match collect (skipn k pages) with
      | inl flags =>
          ([], Normal (acc ++ terminated nl
                                (map page_line (content_pages k flags))))
      | inr e => ([], Raised (Exception e))
      end.
Proof.
  induction n as [|n IH]; intros k acc Hk.
  - rewrite skipn_all2 by lia. simpl. unfold ret.
    now rewrite terminated_nil, app_nil_r.
  - destruct (nth_error pages k) as [page|] eqn:Hp.
    2:{ apply nth_error_None in Hp. lia. }
    rewrite (skipn_nth_error pages k page Hp).
    cbn [seq for_each]. unfold getitem at 1. rewrite Hp.
    specialize (IH (S k)).
    set (rest := skipn (S k) pages) in *.
    destruct page as [[|]|e]; simpl; trivial.
    + rewrite IH by lia. destruct (collect rest); simpl; trivial.
      rewrite terminated_cons, page_line_eq.
      now rewrite <- !app_assoc.
    + rewrite IH by lia. destruct (collect rest); simpl; trivial.
Qed.

(** ** What each backend returns *)

Lemma extract_with_pyPDF2_eq (w : World) (p : pystr) :
  extract_with_pyPDF2 w p = ([EvOpen PyPDF2 p], Normal (pypdf2_text w p)).
Proof.
  unfold extract_with_pyPDF2, pypdf2_text, pages_of.
  destruct (pypdf2_reader w p (fs w p)) as [pages|e]; simpl; trivial.
  rewrite pypdf2_loop. destruct (collect pages); reflexivity.
Qed.

Lemma extract_with_pdfplumber_eq (w : World) (p : pystr) :
  extract_with_pdfplumber w p
  = ([EvOpen Pdfplumber p], Normal (pdfplumber_text w p)).
Proof.
  unfold extract_with_pdfplumber, pdfplumber_text, pages_of.
  destruct (pdfplumber_open w p (fs w p)) as [pages|e]; simpl; trivial.
  rewrite pdfplumber_loop. destruct (collect pages); reflexivity.
Qed.

Lemma strip_page_lines (ns : list nat) :
  ns <> [] ->
  let text := terminated nl (map page_line ns) in
  truthy text = true /\ strip text = join nl (map page_line ns).
Proof.
  intros Hns text. subst text.
  destruct ns as [|n r]; [congruence|].
  rewrite terminated_join by discriminate.
  destruct (page_line_shape n) as (Hne & Hs & He).
  assert (Hj : join nl (map page_line (n :: r)) <> [])
    by now apply join_nonempty.
  split.
  - destruct (join nl (map page_line (n :: r))); [congruence | reflexivity].
  - apply strip_appended; trivial.
    + cbn [map]. now rewrite join_starts.
    + apply join_ends; [discriminate|].
      intros x Hx. apply in_map_iff in Hx as (m & <- & _).
      destruct (page_line_shape m) as (? & ? & ?). now split.
Qed.

Lemma extract_with_pikepdf_eq (w : World) (p : pystr) :
  extract_with_pikepdf w p = ([EvOpen Pikepdf p], Normal (pikepdf_text w p)).
Proof.
  unfold extract_with_pikepdf, pikepdf_text, pages_of.
  destruct (pikepdf_open w p (fs w p)) as [pages|e]; simpl; trivial.
  rewrite pikepdf_loop by reflexivity. simpl skipn.
  destruct (collect pages) as [flags|e]; simpl; trivial.
  destruct (content_pages 0 flags) as [|n r] eqn:E.
  - reflexivity.
  - destruct (strip_page_lines (n :: r)) as [Ht Hs]; [discriminate|].
    now rewrite Ht, Hs.
Qed.

(** ** What [main] does with an existing path *)

Lemma short_or_empty (s : pystr) :
  negb (truthy s) || (len s <? 100)%nat = (len s <? 100)%nat.
Proof. now destruct s. Qed.

Transparent lit.

Lemma main_found (w : World) (a p : pystr) (n : node) :
  fs w p = Some n ->
  main w [a; p] =
    let s1 := pdfplumber_text w p in
    if (len s1 <? 100)%nat
    then
      let s2 := pypdf2_text w p in
      let s3 := pikepdf_text w p in
      ([EvExists p; EvOpen Pdfplumber p; EvOpen PyPDF2 p; EvOpen Pikepdf p;
        EvPrint (success_doc (if truthy s2 then s2 else s3)
                   ["pdfplumber"; "pypdf2"; "pikepdf"]%string)],
       Normal tt)
    else
      ([EvExists p; EvOpen Pdfplumber p;
        EvPrint (success_doc s1 ["pdfplumber"%string])],
       Normal tt).
Proof.
  intros Hn. unfold main, path_exists.
  cbn -[extract_with_pdfplumber extract_with_pyPDF2 extract_with_pikepdf
        Nat.ltb len truthy Z.of_nat].
  rewrite Hn.
  cbn -[extract_with_pdfplumber extract_with_pyPDF2 extract_with_pikepdf
        Nat.ltb len truthy Z.of_nat].
  rewrite extract_with_pdfplumber_eq.
  generalize (pdfplumber_text w p). intros s1.
  cbn -[extract_with_pyPDF2 extract_with_pikepdf Nat.ltb len truthy Z.of_nat].
  rewrite !short_or_empty.
  destruct (len s1 <? 100)%nat eqn:E.
  - rewrite extract_with_pyPDF2_eq.
    cbn -[extract_with_pikepdf Nat.ltb len truthy Z.of_nat].
    rewrite extract_with_pikepdf_eq.
    cbn -[Nat.ltb len truthy Z.of_nat].
    rewrite !short_or_empty, E. reflexivity.
  - cbn -[Nat.ltb len truthy Z.of_nat].
    rewrite !short_or_empty, E. reflexivity.
Qed.

Lemma main_usage (w : World) (argv : list pystr) :
  List.length argv <> 2 ->
  main w argv = ([EvPrint usage_error], Raised (SystemExit 1)).
Proof.
  intros H. unfold main.
  destruct (List.length argv =? 2)%nat eqn:E.
  - apply Nat.eqb_eq in E. contradiction.
  - reflexivity.
Qed.

Lemma main_missing (w : World) (a p : pystr) :
  fs w p = None -> stat_error w p = None ->
  main w [a; p]
  = ([EvExists p; EvPrint (not_found_error p)], Raised (SystemExit 1)).
Proof.
  intros H He. unfold main, path_exists.
  cbn -[extract_with_pdfplumber extract_with_pyPDF2 extract_with_pikepdf
        Nat.ltb len truthy Z.of_nat].
  rewrite H, He. reflexivity.
Qed.

Lemma main_check_raises (w : World) (a p e : pystr) :
  fs w p = None -> stat_error w p = Some e ->
  main w [a; p] = ([EvExists p], Raised (Exception e)).
Proof.
  intros H He. unfold main, path_exists.
  cbn -[extract_with_pdfplumber extract_with_pyPDF2 extract_with_pikepdf
        Nat.ltb len truthy Z.of_nat].
  rewrite H, He. reflexivity.
Qed.

(** The argument vectors, by what [main] does with them. *)
Lemma argv_cases (argv : list pystr) :
  List.length argv <> 2 \/ exists a p, argv = [a; p].
Proof.
  destruct argv as [|a [|p [|q r]]]; simpl; try (left; lia).
  right. now exists a, p.
Qed.

Lemma success_doc_fields (s : pystr) (methods : list string) :
  field "success" (success_doc s methods) = Some (JBool true) /\
  field "text" (success_doc s methods) = Some (JStr s) /\
  field "length" (success_doc s methods) = Some (JInt (Z.of_nat (len s))) /\
  field "methods_used" (success_doc s methods)
  = Some (methods_list methods) /\
  field "error" (success_doc s methods) = None.
Proof. repeat split. Qed.

(** The one document printed for an existing path. *)
Lemma run_found (w : World) (a p : pystr) (n : node) :
  fs w p = Some n ->
  exit_status (run w [a; p]) = 0%Z /\
  exists s methods,
    stdout (run w [a; p]) = [success_doc s methods] /\
    ((len (pdfplumber_text w p) < 100 /\
      s = (if truthy (pypdf2_text w p) then pypdf2_text w p
           else pikepdf_text w p) /\
      methods = ["pdfplumber"; "pypdf2"; "pikepdf"]%string /\
      opened (events (run w [a; p])) = [Pdfplumber; PyPDF2; Pikepdf])
     \/
     (100 <= len (pdfplumber_text w p) /\
      s = pdfplumber_text w p /\
      methods = ["pdfplumber"%string] /\
      opened (events (run w [a; p])) = [Pdfplumber])).
Proof.
  intros Hn. unfold run, stdout. rewrite (@main_found w a p n Hn). cbv zeta.
  destruct (len (pdfplumber_text w p) <? 100)%nat eqn:E.
  - apply Nat.ltb_lt in E. split; trivial.
    eexists _, _. split; [reflexivity|]. left. now repeat split.
  - apply Nat.ltb_ge in E. split; trivial.
    eexists _, _. split; [reflexivity|]. right. now repeat split.
Qed.

Lemma returns_pdfplumber (w : World) (p s : pystr) :
  returns (extract_with_pdfplumber w p) s -> s = pdfplumber_text w p.
Proof.
  unfold returns. rewrite extract_with_pdfplumber_eq. simpl. congruence.
Qed.

Lemma returns_pyPDF2 (w : World) (p s : pystr) :
  returns (extract_with_pyPDF2 w p) s -> s = pypdf2_text w p.
Proof.
  unfold returns. rewrite extract_with_pyPDF2_eq. simpl. congruence.
Qed.

Lemma returns_pikepdf (w : World) (p s : pystr) :
  returns (extract_with_pikepdf w p) s -> s = pikepdf_text w p.
Proof.
  unfold returns. rewrite extract_with_pikepdf_eq. simpl. congruence.
Qed.

Lemma pikepdf_text_nonempty (w : World) (p : pystr) : pikepdf_text w p <> [].
Proof.
  unfold pikepdf_text.
  destruct (pages_of (pikepdf_open w p (fs w p))) as [flags|e].
  - destruct (content_pages 0 flags) as [|n r]; [discriminate|].
    cbn [map]. apply join_nonempty, page_line_shape.
  - discriminate.
Qed.

(** Whitespace at the end does not change what [strip] gives. *)
Lemma lstrip_app (x ws : pystr) :
  lstrip (x ++ ws)
  = match lstrip x with
    | [] => lstrip ws
    | c :: r => (c :: r) ++ ws
    end.
Proof.
  induction x as [|c x IH]; simpl.
  - now destruct (lstrip ws).
  - destruct (isspace c); trivial.
Qed.

Lemma lstrip_all_spaces (ws : pystr) :
  forallb isspace ws = true -> lstrip ws = [].
Proof.
  intros H. rewrite <- (app_nil_r ws). now rewrite lstrip_spaces.
Qed.

Lemma strip_spaces_r (x ws : pystr) :
  forallb isspace ws = true -> strip (x ++ ws) = strip x.
Proof.
  intros H. unfold strip. rewrite lstrip_app.
  destruct (lstrip x) as [|c r].
  - now rewrite lstrip_all_spaces.
  - now apply rstrip_spaces.
Qed.

Lemma strip_terminated (l : list pystr) :
  strip (terminated nlnl l) = strip (join nlnl l).
Proof.
  destruct l as [|x r]; trivial.
  rewrite terminated_join by discriminate. now apply strip_spaces_r.
Qed.

Lemma run_usage (w : World) (argv : list pystr) :
  List.length argv <> 2 ->
  exit_status (run w argv) = 1%Z /\ stdout (run w argv) = [usage_error].
Proof.
  intros H. unfold run, stdout. now rewrite main_usage.
Qed.

Lemma run_missing (w : World) (a p : pystr) :
  fs w p = None -> stat_error w p = None ->
  exit_status (run w [a; p]) = 1%Z /\
  stdout (run w [a; p]) = [not_found_error p].
Proof.
  intros H He. unfold run, stdout. now rewrite main_missing.
Qed.

Lemma run_check_raises (w : World) (a p e : pystr) :
  fs w p = None -> stat_error w p = Some e ->
  exit_status (run w [a; p]) = 1%Z /\
  events (run w [a; p]) = [EvExists p].
Proof.
  intros H He. unfold run. now rewrite (main_check_raises w a p e H He).
Qed.

Lemma same_pdfplumber_text (w1 w2 : World) (p : pystr) :
  same_libraries w1 w2 -> same_file w1 w2 p ->
  pdfplumber_text w1 p = pdfplumber_text w2 p.
Proof.
  intros (H & _ & _) [Hf _]. unfold pdfplumber_text. now rewrite H, Hf.
Qed.

Lemma same_pypdf2_text (w1 w2 : World) (p : pystr) :
  same_libraries w1 w2 -> same_file w1 w2 p ->
  pypdf2_text w1 p = pypdf2_text w2 p.
Proof.
  intros (_ & H & _) [Hf _]. unfold pypdf2_text. now rewrite H, Hf.
Qed.

Lemma same_pikepdf_text (w1 w2 : World) (p : pystr) :
  same_libraries w1 w2 -> same_file w1 w2 p ->
  pikepdf_text w1 p = pikepdf_text w2 p.
Proof.
  intros (_ & _ & H) [Hf _]. unfold pikepdf_text. now rewrite H, Hf.
Qed.

(** * The claims *)

(** C2: when pdfplumber returns at least 100 characters, [methods_used] is
    the one-element list with "pdfplumber", [text] is what pdfplumber
    returned, and neither PyPDF2 nor pikepdf is called. *)
Theorem long_primary_is_final (w : World) (a p s : pystr) :
  fs w p <> None ->
  returns (extract_with_pdfplumber w p) s ->
  100 <= len s ->
  let o := run w [a; p] in
  exit_status o = 0%Z /\
  opened (events o) = [Pdfplumber] /\
  exists j,
    stdout o = [j] /\
    field "methods_used" j = Some (JList [JStr (lit "pdfplumber")]) /\
    field "text" j = Some (JStr s).
Proof.
  intros Hf Hs Hlen o. subst o.
  apply returns_pdfplumber in Hs. subst s.
  destruct (fs w p) as [n|] eqn:Hn; [clear Hf | congruence].
  destruct (run_found w a p n Hn) as (Hx & t & ms & Hout & Hcase).
  destruct Hcase as [(Hlt & _) | (_ & -> & -> & Hop)]; [lia|].
  repeat split; trivial.
  exists (success_doc (pdfplumber_text w p) ["pdfplumber"%string]).
  now repeat split.
Qed.

Lemma long_primary_is_final_witness :
  let o := run w_long [prog; sample_path] in
  exit_status o = 0%Z /\
  opened (events o) = [Pdfplumber] /\
  exists j,
    stdout o = [j] /\
    field "methods_used" j = Some (JList [JStr (lit "pdfplumber")]) /\
    field "text" j = Some (JStr long_text).
Proof.
  apply (@long_primary_is_final w_long prog sample_path long_text).
  - discriminate.
  - reflexivity.
  - vm_compute. lia.
Defined.

(** C5: when pdfplumber returns fewer than 100 characters (none
    included), [methods_used] is "pdfplumber", "pypdf2", "pikepdf" in
    this order, the order in which the libraries are called. *)
Theorem short_primary_uses_all_backends (w : World) (a p s : pystr) :
  fs w p <> None ->
  returns (extract_with_pdfplumber w p) s ->
  len s < 100 ->
  let o := run w [a; p] in
  opened (events o) = [Pdfplumber; PyPDF2; Pikepdf] /\
  exists j,
    stdout o = [j] /\
    field "methods_used" j
    = Some (JList [JStr (lit "pdfplumber"); JStr (lit "pypdf2");
                   JStr (lit "pikepdf")]).
Proof.
  intros Hf Hs Hlen o. subst o.
  apply returns_pdfplumber in Hs. subst s.
  destruct (fs w p) as [n|] eqn:Hn; [clear Hf | congruence].
  destruct (run_found w a p n Hn) as (Hx & t & ms & Hout & Hcase).
  destruct Hcase as [(_ & _ & -> & Hop) | (Hge & _)]; [|lia].
  split; trivial.
  exists (success_doc t ["pdfplumber"; "pypdf2"; "pikepdf"]%string).
  now split.
Qed.

Lemma short_primary_uses_all_backends_witness :
  let o := run w_short [prog; sample_path] in
  opened (events o) = [Pdfplumber; PyPDF2; Pikepdf] /\
  exists j,
    stdout o = [j] /\
    field "methods_used" j
    = Some (JList [JStr (lit "pdfplumber"); JStr (lit "pypdf2");
                   JStr (lit "pikepdf")]).
Proof.
  apply (@short_primary_uses_all_backends
           w_short prog sample_path (lit "Invoice 42")).
  - discriminate.
  - reflexivity.
  - vm_compute. lia.
Defined.

(** C1, as the code has it: when pdfplumber returns fewer than 100
    characters, whether none or some, [text] is what PyPDF2 returned if
    that is not empty, and what pikepdf returned otherwise. *)
Theorem short_primary_falls_back (w : World) (a p s1 s2 s3 : pystr) :
  fs w p <> None ->
  returns (extract_with_pdfplumber w p) s1 ->
  returns (extract_with_pyPDF2 w p) s2 ->
  returns (extract_with_pikepdf w p) s3 ->
  len s1 < 100 ->
  exists j,
    stdout (run w [a; p]) = [j] /\
    field "text" j = Some (JStr (if truthy s2 then s2 else s3)).
Proof.
  intros Hf H1 H2 H3 Hlen.
  apply returns_pdfplumber in H1. apply returns_pyPDF2 in H2.
  apply returns_pikepdf in H3. subst s1 s2 s3.
  destruct (fs w p) as [n|] eqn:Hn; [clear Hf | congruence].
  destruct (run_found w a p n Hn) as (Hx & t & ms & Hout & Hcase).
  destruct Hcase as [(_ & -> & _) | (Hge & _)]; [|lia].
  eexists. split; [exact Hout | reflexivity].
Qed.

Lemma short_primary_falls_back_witness :
  exists j,
    stdout (run w_short [prog; sample_path]) = [j] /\
    field "text" j = Some (JStr (lit "Invoice 42 total")).
Proof.
  apply (@short_primary_falls_back w_short prog sample_path
           (lit "Invoice 42") (lit "Invoice 42 total")
           (lit "Page 1 - Content available" ++ nl
              ++ lit "Page 3 - Content available")).
  - discriminate.
  - reflexivity.
  - reflexivity.
  - reflexivity.
  - vm_compute. lia.
Defined.

(** C1, as stated, fails: pdfplumber returns the ten characters
    "Invoice 42", PyPDF2 returns "Invoice 42 total", and [text] is the
    latter. *)
Lemma short_primary_is_replaced :
  fs w_short sample_path <> None /\
  returns (extract_with_pdfplumber w_short sample_path) (lit "Invoice 42") /\
  lit "Invoice 42" <> [] /\
  len (lit "Invoice 42") < 100 /\
  exists j,
    stdout (run w_short [prog; sample_path]) = [j] /\
    field "text" j = Some (JStr (lit "Invoice 42 total")) /\
    field "text" j <> Some (JStr (lit "Invoice 42")).
Proof.
  split; [discriminate|]. split; [reflexivity|]. split; [discriminate|].
  split; [vm_compute; lia|].
  eexists. split; [reflexivity|]. split; [reflexivity | discriminate].
Qed.



(** C4: each of the three backend functions ends normally with a string,
    whatever the library does; when the library raises, on opening or on
    a page, the string is the name of the backend, "Error:" and the
    message. *)
Theorem backends_never_raise (w : World) (p : pystr) :
  (exists s, returns (extract_with_pdfplumber w p) s) /\
  (exists s, returns (extract_with_pyPDF2 w p) s) /\
  (exists s, returns (extract_with_pikepdf w p) s) /\
  on_failure (pages_of (pdfplumber_open w p (fs w p)))
    (fun e => returns (extract_with_pdfplumber w p)
                (lit "PDFPlumber Error: " ++ e)) /\
  on_failure (pages_of (pypdf2_reader w p (fs w p)))
    (fun e => returns (extract_with_pyPDF2 w p)
                (lit "PyPDF2 Error: " ++ e)) /\
  on_failure (pages_of (pikepdf_open w p (fs w p)))
    (fun e => returns (extract_with_pikepdf w p)
                (lit "PikePDF Error: " ++ e)).
Proof.
  unfold returns.
  rewrite extract_with_pdfplumber_eq, extract_with_pyPDF2_eq,
    extract_with_pikepdf_eq.
  repeat split; try (eexists; reflexivity).
  - unfold pdfplumber_text.
    now destruct (pages_of (pdfplumber_open w p (fs w p))).
  - unfold pypdf2_text.
    now destruct (pages_of (pypdf2_reader w p (fs w p))).
  - unfold pikepdf_text.
    now destruct (pages_of (pikepdf_open w p (fs w p))).
Qed.

(** C6: in every document printed with [success] true, [length] is the
    number of characters of [text]. *)
Theorem length_field_counts_text (w : World) (argv : list pystr) (j : json) :
  In j (stdout (run w argv)) ->
  field "success" j = Some (JBool true) ->
  exists s,
    field "text" j = Some (JStr s) /\
    field "length" j = Some (JInt (Z.of_nat (len s))).
Proof.
  intros Hin Hok.
  destruct (argv_cases argv) as [Hlen | (a & p & ->)].
  - destruct (run_usage w argv Hlen) as [_ Hout]. rewrite Hout in Hin.
    destruct Hin as [<- | []]. discriminate.
  - destruct (fs w p) as [n|] eqn:Hn.
    + destruct (run_found w a p n Hn) as (_ & s & ms & Hout & _).
      rewrite Hout in Hin. destruct Hin as [<- | []].
      exists s. now split.
    + destruct (stat_error w p) as [e|] eqn:He.
      * destruct (run_check_raises w a p e Hn He) as [_ Hev].
        unfold stdout in Hin. rewrite Hev in Hin. destruct Hin.
      * destruct (run_missing w a p Hn He) as [_ Hout]. rewrite Hout in Hin.
        destruct Hin as [<- | []]. discriminate.
Qed.

Lemma length_field_counts_text_witness :
  exists s,
    field "text" (success_doc (lit "Invoice 42 total")
                    ["pdfplumber"; "pypdf2"; "pikepdf"]%string)
    = Some (JStr s) /\
    field "length" (success_doc (lit "Invoice 42 total")
                      ["pdfplumber"; "pypdf2"; "pikepdf"]%string)
    = Some (JInt (Z.of_nat (len s))).
Proof.
  apply (@length_field_counts_text w_short [prog; sample_path]).
  - left. reflexivity.
  - reflexivity.
Defined.

(** C7: two runs with the same arguments, with libraries that are the
    same functions of the file and with the same file at the given path,
    print the same documents and exit with the same status; they also
    make the same calls. *)
Theorem run_deterministic (w1 w2 : World) (argv : list pystr) :
  same_libraries w1 w2 ->
  (forall p, nth_error argv 1 = Some p -> same_file w1 w2 p) ->
  run w1 argv = run w2 argv.
Proof.
  intros Hlib Hfile.
  destruct (argv_cases argv) as [Hlen | (a & p & ->)].
  - unfold run. now rewrite !main_usage.
  - specialize (Hfile p eq_refl). unfold run.
    pose proof Hfile as [Hfs Hst].
    destruct (fs w1 p) as [n|] eqn:Hn.
    + rewrite (main_found w1 a p n Hn).
      symmetry in Hfs. rewrite (main_found w2 a p n Hfs).
      now rewrite (same_pdfplumber_text w1 w2 p),
        (same_pypdf2_text w1 w2 p), (same_pikepdf_text w1 w2 p).
    + symmetry in Hfs. destruct (stat_error w1 p) as [e|] eqn:He.
      * symmetry in Hst.
        now rewrite (main_check_raises w1 a p e Hn He),
          (main_check_raises w2 a p e Hfs Hst).
      * symmetry in Hst.
        now rewrite (main_missing w1 a p Hn He),
          (main_missing w2 a p Hfs Hst).
Qed.

Lemma run_deterministic_witness :
  run w_short [prog; sample_path] = run w_short_more [prog; sample_path].
Proof.
  apply (run_deterministic w_short w_short_more [prog; sample_path]).
  - repeat split.
  - intros p Hp. injection Hp as <-. split; reflexivity.
Defined.

(** C8, as the code has it: when the library raises nowhere, the primary
    and the secondary backend return the page texts joined by a blank
    line, with whitespace removed at both ends, the primary leaving out
    the pages whose text is [None] or empty; the result neither starts
    nor ends with whitespace. *)
Theorem page_text_stripped_both_ends (w : World) (p : pystr) :
  (forall pages,
      pages_of (pdfplumber_open w p (fs w p)) = inl pages ->
      let s := strip (join nlnl (visible pages)) in
      returns (extract_with_pdfplumber w p) s /\
      starts_with_space s = false /\ ends_with_space s = false) /\
  (forall texts,
      pages_of (pypdf2_reader w p (fs w p)) = inl texts ->
      let s := strip (join nlnl texts) in
      returns (extract_with_pyPDF2 w p) s /\
      starts_with_space s = false /\ ends_with_space s = false).
Proof.
  split.
  - intros pages H s. subst s. unfold returns.
    rewrite extract_with_pdfplumber_eq. unfold pdfplumber_text.
    rewrite H, strip_terminated.
    split; [reflexivity | split; [apply strip_starts | apply strip_ends]].
  - intros texts H s. subst s. unfold returns.
    rewrite extract_with_pyPDF2_eq. unfold pypdf2_text.
    rewrite H, strip_terminated.
    split; [reflexivity | split; [apply strip_starts | apply strip_ends]].
Qed.

Lemma page_text_stripped_both_ends_witness :
  (returns (extract_with_pdfplumber w_indented sample_path)
     (lit "Invoice 42") /\
   starts_with_space (lit "Invoice 42") = false /\
   ends_with_space (lit "Invoice 42") = false) /\
  (returns (extract_with_pyPDF2 w_indented sample_path)
     (lit "Invoice 42") /\
   starts_with_space (lit "Invoice 42") = false /\
   ends_with_space (lit "Invoice 42") = false).
Proof.
  split.
  - apply (proj1 (page_text_stripped_both_ends w_indented sample_path)
             [Some (lit " Invoice 42")]).
    reflexivity.
  - apply (proj2 (page_text_stripped_both_ends w_indented sample_path)
             [lit " Invoice 42"]).
    reflexivity.
Defined.

(** C8, as stated, fails: for a single page whose text is " Invoice 42"
    both backends return "Invoice 42", while removing trailing whitespace
    only would leave the text as it is. *)
Lemma page_text_leading_space :
  pages_of (pdfplumber_open w_indented sample_path
              (fs w_indented sample_path))
  = inl [Some (lit " Invoice 42")] /\
  pages_of (pypdf2_reader w_indented sample_path
              (fs w_indented sample_path))
  = inl [lit " Invoice 42"] /\
  spec_page_text [lit " Invoice 42"] = lit " Invoice 42" /\
  returns (extract_with_pdfplumber w_indented sample_path)
    (lit "Invoice 42") /\
  returns (extract_with_pyPDF2 w_indented sample_path) (lit "Invoice 42") /\
  ~ returns (extract_with_pdfplumber w_indented sample_path)
      (spec_page_text [lit " Invoice 42"]) /\
  ~ returns (extract_with_pyPDF2 w_indented sample_path)
      (spec_page_text [lit " Invoice 42"]).
Proof.
  repeat split; discriminate.
Qed.

(** C9: when pdfplumber raises and "PDFPlumber Error: " followed by the
    message has at least 100 characters, no other backend is called and
    the printed document has [success] true, [methods_used] with
    "pdfplumber" alone and the error string as [text]. *)
Theorem long_error_is_accepted (w : World) (a p e : pystr) :
  fs w p <> None ->
  pages_of (pdfplumber_open w p (fs w p)) = inr e ->
  100 <= len (lit "PDFPlumber Error: " ++ e) ->
  let o := run w [a; p] in
  exit_status o = 0%Z /\
  opened (events o) = [Pdfplumber] /\
  exists j,
    stdout o = [j] /\
    field "success" j = Some (JBool true) /\
    field "methods_used" j = Some (JList [JStr (lit "pdfplumber")]) /\
    field "text" j = Some (JStr (lit "PDFPlumber Error: " ++ e)).
Proof.
  intros Hf He Hlen o. subst o.
  assert (Ht : pdfplumber_text w p = lit "PDFPlumber Error: " ++ e)
    by (unfold pdfplumber_text; now rewrite He).
  destruct (fs w p) as [n|] eqn:Hn; [clear Hf | congruence].
  destruct (run_found w a p n Hn) as (Hx & t & ms & Hout & Hcase).
  rewrite Ht in Hcase.
  destruct Hcase as [(Hlt & _) | (_ & -> & -> & Hop)]; [lia|].
  repeat split; trivial.
  eexists. split; [exact Hout|]. now repeat split.
Qed.

Lemma long_error_is_accepted_witness :
  let o := run w_broken [prog; sample_path] in
  exit_status o = 0%Z /\
  opened (events o) = [Pdfplumber] /\
  exists j,
    stdout o = [j] /\
    field "success" j = Some (JBool true) /\
    field "methods_used" j = Some (JList [JStr (lit "pdfplumber")]) /\
    field "text" j = Some (JStr (lit "PDFPlumber Error: " ++ long_text)).
Proof.
  apply (long_error_is_accepted w_broken prog sample_path long_text).
  - discriminate.
  - reflexivity.
  - vm_compute. lia.
Defined.

(** C10: [extract_with_pikepdf] never returns the empty string: it
    returns "PikePDF Error: " and the message when the library raises,
    "No extractable text found with pikepdf" when no page has contents,
    and otherwise one line "Page <n> - Content available" for each page
    that has contents. *)
Theorem pikepdf_never_empty (w : World) (p : pystr) :
  exists s,
    returns (extract_with_pikepdf w p) s /\
    s <> [] /\
    match pages_of (pikepdf_open w p (fs w p)) with
    | inr e => s = lit "PikePDF Error: " ++ e
    | inl flags =>
        match content_pages 0 flags with
        | [] => s = lit "No extractable text found with pikepdf"
        | ns => s = join nl (map page_line ns)
        end
    end.
Proof.
  exists (pikepdf_text w p). split; [|split].
  - unfold returns. now rewrite extract_with_pikepdf_eq.
  - apply pikepdf_text_nonempty.
  - unfold pikepdf_text.
    destruct (pages_of (pikepdf_open w p (fs w p))) as [flags|e]; trivial.
    now destruct (content_pages 0 flags).
Qed.

Transparent terminated str_of_nat page_line.

(** * Further properties of the script *)

(** ** What is and is not touched *)

(** X1: with a wrong number of arguments the script prints the usage
    error and does nothing else: the file system is not consulted; with
    a path that the existence check reports absent it asks for the path,
    prints the error and opens no library; when the check raises it has
    asked for the path and does nothing more. *)
Theorem errors_touch_no_library (w : World) (argv : list pystr) :
  match argv with
  | [_; p] =>
      match fs w p, stat_error w p with
      | Some _, _ => True
      | None, None =>
          events (run w argv) = [EvExists p; EvPrint (not_found_error p)]
      | None, Some _ => events (run w argv) = [EvExists p]
      end
  | _ => events (run w argv) = [EvPrint usage_error]
  end.
Proof.
  destruct (argv_cases argv) as [Hlen | (a & p & ->)].
  - assert (H : events (run w argv) = [EvPrint usage_error])
      by (unfold run; now rewrite main_usage).
    destruct argv as [|a [|p [|q r]]]; trivial. simpl in Hlen. lia.
  - destruct (fs w p) eqn:Hn; trivial.
    destruct (stat_error w p) as [e|] eqn:He.
    + unfold run. now rewrite (main_check_raises w a p e Hn He).
    + unfold run. now rewrite main_missing.
Qed.

(** X2: the name under which the script is started, [sys.argv[0]], has
    no influence on what it does. *)
Theorem program_name_is_ignored (w : World) (a b : pystr)
  (args : list pystr) :
  run w (a :: args) = run w (b :: args).
Proof.
  destruct args as [|p [|q r]].
  - unfold run. rewrite !main_usage; simpl; trivial; lia.
  - unfold run. destruct (fs w p) as [n|] eqn:Hn.
    + now rewrite (main_found w a p n Hn), (main_found w b p n Hn).
    + destruct (stat_error w p) as [e|] eqn:He.
      * now rewrite (main_check_raises w a p e Hn He),
          (main_check_raises w b p e Hn He).
      * now rewrite (main_missing w a p Hn He), (main_missing w b p Hn He).
  - unfold run. rewrite !main_usage; simpl; trivial; lia.
Qed.

(** ** The printed document *)

Lemma long_is_nonempty (s : pystr) : 100 <= len s -> s <> [].
Proof. destruct s; simpl; [lia | discriminate]. Qed.

Lemma printed_success (w : World) (argv : list pystr) (j : json) :
  In j (stdout (run w argv)) ->
  field "success" j = Some (JBool true) ->
  exists a p n s methods,
    argv = [a; p] /\ fs w p = Some n /\ j = success_doc s methods /\
    ((len (pdfplumber_text w p) < 100 /\
      s = (if truthy (pypdf2_text w p) then pypdf2_text w p
           else pikepdf_text w p) /\
      methods = ["pdfplumber"; "pypdf2"; "pikepdf"]%string)
     \/
     (100 <= len (pdfplumber_text w p) /\
      s = pdfplumber_text w p /\
      methods = ["pdfplumber"%string])).
Proof.
  intros Hin Hok.
  destruct (argv_cases argv) as [Hlen | (a & p & ->)].
  - destruct (run_usage w argv Hlen) as [_ Hout]. rewrite Hout in Hin.
    destruct Hin as [<- | []]. discriminate.
  - destruct (fs w p) as [n|] eqn:Hn.
    + destruct (run_found w a p n Hn) as (_ & s & ms & Hout & Hcase).
      rewrite Hout in Hin. destruct Hin as [<- | []].
      exists a, p, n, s, ms. repeat split; trivial.
      destruct Hcase as [(H1 & H2 & H3 & _) | (H1 & H2 & H3 & _)];
        [left | right]; now repeat split.
    + destruct (stat_error w p) as [e|] eqn:He.
      * destruct (run_check_raises w a p e Hn He) as [_ Hev].
        unfold stdout in Hin. rewrite Hev in Hin. destruct Hin.
      * destruct (run_missing w a p Hn He) as [_ Hout]. rewrite Hout in Hin.
        destruct Hin as [<- | []]. discriminate.
Qed.

(** X3: the [text] of a document printed with [success] true is never
    empty, and its [length] is at least 1: when the two extracting
    backends give nothing, the placeholder of pikepdf is printed. *)
Theorem text_is_never_empty (w : World) (argv : list pystr) (j : json) :
  In j (stdout (run w argv)) ->
  field "success" j = Some (JBool true) ->
  exists s,
    field "text" j = Some (JStr s) /\ s <> [] /\
    field "length" j = Some (JInt (Z.of_nat (len s))) /\
    (1 <= Z.of_nat (len s))%Z.
Proof.
  intros Hin Hok.
  destruct (printed_success w argv j Hin Hok)
    as (a & p & n & s & ms & -> & Hn & -> & Hcase).
  assert (Hs : s <> []).
  { destruct Hcase as [(_ & -> & _) | (Hge & -> & _)].
    - destruct (truthy (pypdf2_text w p)) eqn:Ht.
      + intros E. rewrite E in Ht. discriminate.
      + apply pikepdf_text_nonempty.
    - now apply long_is_nonempty. }
  exists s. repeat split; trivial.
  destruct s; [congruence | simpl; lia].
Qed.

Lemma text_is_never_empty_witness :
  exists s,
    field "text" (success_doc (lit "No extractable text found with pikepdf")
                    ["pdfplumber"; "pypdf2"; "pikepdf"]%string)
    = Some (JStr s) /\ s <> [] /\
    field "length" (success_doc (lit "No extractable text found with pikepdf")
                      ["pdfplumber"; "pypdf2"; "pikepdf"]%string)
    = Some (JInt (Z.of_nat (len s))) /\
    (1 <= Z.of_nat (len s))%Z.
Proof.
  apply (text_is_never_empty w_blank [prog; sample_path]).
  - left. reflexivity.
  - reflexivity.
Defined.

(** X11: a document printed with [success] true names either pdfplumber
    alone, and then its text has at least 100 characters, or the three
    backends in the order of their calls. *)
Theorem methods_reflect_length (w : World) (argv : list pystr) (j : json) :
  In j (stdout (run w argv)) ->
  field "success" j = Some (JBool true) ->
  (field "methods_used" j = Some (methods_list ["pdfplumber"%string]) /\
   exists s, field "text" j = Some (JStr s) /\ 100 <= len s)
  \/
  field "methods_used" j
  = Some (methods_list ["pdfplumber"; "pypdf2"; "pikepdf"]%string).
Proof.
  intros Hin Hok.
  destruct (printed_success w argv j Hin Hok)
    as (a & p & n & s & ms & -> & Hn & -> & Hcase).
  destruct Hcase as [(_ & _ & ->) | (Hge & -> & ->)].
  - now right.
  - left. split; trivial. now exists (pdfplumber_text w p).
Qed.

Lemma methods_reflect_length_witness :
  (field "methods_used" (success_doc long_text ["pdfplumber"%string])
   = Some (methods_list ["pdfplumber"%string]) /\
   exists s,
     field "text" (success_doc long_text ["pdfplumber"%string])
     = Some (JStr s) /\ 100 <= len s)
  \/
  field "methods_used" (success_doc long_text ["pdfplumber"%string])
  = Some (methods_list ["pdfplumber"; "pypdf2"; "pikepdf"]%string).
Proof.
  apply (methods_reflect_length w_long [prog; sample_path]).
  - left. reflexivity.
  - reflexivity.
Defined.

(** ** Failures *)

Lemma collect_first_failure {A} (done : list A) (e : pystr)
  (rest : list (lib A)) :
  collect (map inl done ++ inr e :: rest) = inr e.
Proof.
  induction done as [|a r IH]; simpl; trivial. now rewrite IH.
Qed.

(** X12: when a page cannot be read, the text of the pages before it is
    lost and the pages after it are not looked at: the backend returns
    its error string with the message of that page. *)
Theorem page_failure_discards_text (w : World) (p e : pystr) :
  (forall done rest,
      pdfplumber_open w p (fs w p) = inl (map inl done ++ inr e :: rest) ->
      returns (extract_with_pdfplumber w p) (lit "PDFPlumber Error: " ++ e))
  /\
  (forall done rest,
      pypdf2_reader w p (fs w p) = inl (map inl done ++ inr e :: rest) ->
      returns (extract_with_pyPDF2 w p) (lit "PyPDF2 Error: " ++ e))
  /\
  (forall done rest,
      pikepdf_open w p (fs w p) = inl (map inl done ++ inr e :: rest) ->
      returns (extract_with_pikepdf w p) (lit "PikePDF Error: " ++ e)).
Proof.
  unfold returns. repeat split; intros done rest H.
  - rewrite extract_with_pdfplumber_eq. unfold pdfplumber_text, pages_of.
    now rewrite H, collect_first_failure.
  - rewrite extract_with_pyPDF2_eq. unfold pypdf2_text, pages_of.
    now rewrite H, collect_first_failure.
  - rewrite extract_with_pikepdf_eq. unfold pikepdf_text, pages_of.
    now rewrite H, collect_first_failure.
Qed.

Lemma page_failure_discards_text_witness :
  returns (extract_with_pdfplumber w_bad_page sample_path)
    (lit "PDFPlumber Error: bad page") /\
  returns (extract_with_pyPDF2 w_bad_page sample_path)
    (lit "PyPDF2 Error: bad page") /\
  returns (extract_with_pikepdf w_bad_page sample_path)
    (lit "PikePDF Error: bad page").
Proof.
  pose proof (page_failure_discards_text w_bad_page sample_path
                (lit "bad page")) as (H1 & H2 & H3).
  split; [|split].
  - apply (H1 [Some (lit "Invoice 42")] [inl (Some (lit "Total 10"))]).
    reflexivity.
  - apply (H2 [lit "Invoice 42"] [inl (lit "Total 10")]). reflexivity.
  - apply (H3 [true] [inl true]). reflexivity.
Defined.

(** X4: when pdfplumber gives fewer than 100 characters and PyPDF2
    raises, the script still exits with status 0 and [success] true, and
    [text] is the error string of PyPDF2; what pikepdf returned is not
    used. *)
Theorem secondary_error_is_selected (w : World) (a p s1 e : pystr) :
  fs w p <> None ->
  returns (extract_with_pdfplumber w p) s1 ->
  len s1 < 100 ->
  pages_of (pypdf2_reader w p (fs w p)) = inr e ->
  exit_status (run w [a; p]) = 0%Z /\
  exists j,
    stdout (run w [a; p]) = [j] /\
    field "success" j = Some (JBool true) /\
    field "text" j = Some (JStr (lit "PyPDF2 Error: " ++ e)).
Proof.
  intros Hf H1 Hlen He.
  apply returns_pdfplumber in H1. subst s1.
  assert (H2 : pypdf2_text w p = lit "PyPDF2 Error: " ++ e)
    by (unfold pypdf2_text; now rewrite He).
  destruct (fs w p) as [n|] eqn:Hn; [clear Hf | congruence].
  destruct (run_found w a p n Hn) as (Hx & t & ms & Hout & Hcase).
  split; trivial.
  destruct Hcase as [(_ & -> & _) | (Hge & _)]; [|lia].
  eexists. split; [exact Hout|]. split; [reflexivity|].
  rewrite H2. reflexivity.
Qed.

Lemma secondary_error_is_selected_witness :
  exit_status (run w_unreadable [prog; sample_path]) = 0%Z /\
  exists j,
    stdout (run w_unreadable [prog; sample_path]) = [j] /\
    field "success" j = Some (JBool true) /\
    field "text" j = Some (JStr (lit "PyPDF2 Error: EOF marker not found")).
Proof.
  apply (secondary_error_is_selected w_unreadable prog sample_path
           (lit "PDFPlumber Error: No /Root object! - Is this really a PDF?")
           (lit "EOF marker not found")).
  - discriminate.
  - reflexivity.
  - vm_compute. lia.
  - reflexivity.
Defined.

Lemma pdfplumber_error_length (e : pystr) :
  len (lit "PDFPlumber Error: " ++ e) = 18 + len e.
Proof. unfold len. now rewrite length_app. Qed.

(** X5: when pdfplumber raises on an existing file, the other two
    backends are called exactly when the message has fewer than 82
    characters: the prefix "PDFPlumber Error: " counts for 18 of the 100
    characters of the threshold. *)
Theorem primary_failure_threshold (w : World) (a p e : pystr) :
  fs w p <> None ->
  pages_of (pdfplumber_open w p (fs w p)) = inr e ->
  (opened (events (run w [a; p])) = [Pdfplumber] <-> 82 <= len e) /\
  (opened (events (run w [a; p])) = [Pdfplumber; PyPDF2; Pikepdf]
   <-> len e < 82).
Proof.
  intros Hf He.
  assert (Ht : len (pdfplumber_text w p) = 18 + len e)
    by (unfold pdfplumber_text; rewrite He; apply pdfplumber_error_length).
  destruct (fs w p) as [n|] eqn:Hn; [clear Hf | congruence].
  destruct (run_found w a p n Hn) as (_ & t & ms & _ & Hcase).
  rewrite Ht in Hcase.
  destruct Hcase as [(Hlt & _ & _ & ->) | (Hge & _ & _ & ->)].
  - split; split; intros H; try discriminate; trivial; lia.
  - split; split; intros H; try discriminate; trivial; lia.
Qed.

Lemma primary_failure_threshold_witness :
  (opened (events (run w_unreadable [prog; sample_path])) = [Pdfplumber]
   <-> 82 <= len (lit "No /Root object! - Is this really a PDF?")) /\
  (opened (events (run w_unreadable [prog; sample_path]))
   = [Pdfplumber; PyPDF2; Pikepdf]
   <-> len (lit "No /Root object! - Is this really a PDF?") < 82).
Proof.
  apply (primary_failure_threshold w_unreadable prog sample_path
           (lit "No /Root object! - Is this really a PDF?")).
  - discriminate.
  - reflexivity.
Defined.

(** ** What stripping keeps *)

Lemma lstrip_split (s : pystr) :
  exists l, forallb isspace l = true /\ s = l ++ lstrip s.
Proof.
  induction s as [|c s (l & Hl & E)]; simpl.
  - now exists [].
  - destruct (isspace c) eqn:Hc.
    + exists (c :: l). simpl. rewrite Hc, Hl. split; trivial. now f_equal.
    + now exists [].
Qed.

Lemma forallb_rev (f : N -> bool) (l : pystr) :
  forallb f l = true -> forallb f (rev l) = true.
Proof.
  rewrite !forallb_forall. intros H x Hx. apply H. now apply in_rev.
Qed.

Lemma rstrip_split (s : pystr) :
  exists r, forallb isspace r = true /\ s = rstrip s ++ r.
Proof.
  destruct (lstrip_split (rev s)) as (l & Hl & E).
  exists (rev l). split; [now apply forallb_rev|].
  unfold rstrip. rewrite <- rev_app_distr, <- E. now rewrite rev_involutive.
Qed.

Lemma strip_split (s : pystr) :
  exists l r,
    forallb isspace l = true /\ forallb isspace r = true /\
    s = l ++ strip s ++ r.
Proof.
  destruct (lstrip_split s) as (l & Hl & El).
  destruct (rstrip_split (lstrip s)) as (r & Hr & Er).
  exists l, r. repeat split; trivial.
  unfold strip. now rewrite <- Er.
Qed.

Lemma strip_empty_iff (s : pystr) :
  strip s = [] <-> forallb isspace s = true.
Proof.
  split.
  - intros E. destruct (strip_split s) as (l & r & Hl & Hr & Es).
    rewrite E in Es. rewrite Es. simpl. rewrite forallb_app.
    now rewrite Hl, Hr.
  - intros H. unfold strip. now rewrite lstrip_all_spaces.
Qed.

Lemma terminated_all_space (texts : list pystr) :
  forallb isspace (terminated nlnl texts) = true
  <-> forall t, In t texts -> forallb isspace t = true.
Proof.
  induction texts as [|x r IH].
  - split; [intros _ t [] | reflexivity].
  - rewrite terminated_cons, !forallb_app, !andb_true_iff, IH. split.
    + intros [[Hx _] Hr] t [<- | Ht]; auto.
    + intros H. repeat split.
      * apply H. now left.
      * intros t Ht. apply H. now right.
Qed.

Lemma in_visible (pages : list (option pystr)) (t : pystr) :
  In t (visible pages) <-> In (Some t) pages /\ t <> [].
Proof.
  unfold visible. rewrite in_flat_map. split.
  - intros ([u|] & Hin & Ht); [|destruct Ht].
    destruct u as [|c u]; simpl in Ht; [destruct Ht|].
    destruct Ht as [<- | []]. split; [trivial | discriminate].
  - intros [Hin Hne]. exists (Some t). split; trivial.
    destruct t; [congruence | now left].
Qed.

(** X8: stripping loses no visible character: when the library raises
    nowhere, what the primary and the secondary backend return is the
    page texts, each followed by a blank line, from which only
    whitespace at the two ends has been removed. *)
Theorem extraction_loses_no_text (w : World) (p : pystr) :
  (forall pages,
      pages_of (pdfplumber_open w p (fs w p)) = inl pages ->
      exists s l r,
        returns (extract_with_pdfplumber w p) s /\
        forallb isspace l = true /\ forallb isspace r = true /\
        terminated nlnl (visible pages) = l ++ s ++ r) /\
  (forall texts,
      pages_of (pypdf2_reader w p (fs w p)) = inl texts ->
      exists s l r,
        returns (extract_with_pyPDF2 w p) s /\
        forallb isspace l = true /\ forallb isspace r = true /\
        terminated nlnl texts = l ++ s ++ r).
Proof.
  unfold returns. split.
  - intros pages H.
    destruct (strip_split (terminated nlnl (visible pages)))
      as (l & r & Hl & Hr & E).
    exists (strip (terminated nlnl (visible pages))), l, r.
    rewrite extract_with_pdfplumber_eq. unfold pdfplumber_text.
    rewrite H. now repeat split.
  - intros texts H.
    destruct (strip_split (terminated nlnl texts)) as (l & r & Hl & Hr & E).
    exists (strip (terminated nlnl texts)), l, r.
    rewrite extract_with_pyPDF2_eq. unfold pypdf2_text.
    rewrite H. now repeat split.
Qed.

Lemma extraction_loses_no_text_witness :
  (exists s l r,
      returns (extract_with_pdfplumber w_indented sample_path) s /\
      forallb isspace l = true /\ forallb isspace r = true /\
      terminated nlnl (visible [Some (lit " Invoice 42")]) = l ++ s ++ r) /\
  (exists s l r,
      returns (extract_with_pyPDF2 w_indented sample_path) s /\
      forallb isspace l = true /\ forallb isspace r = true /\
      terminated nlnl [lit " Invoice 42"] = l ++ s ++ r).
Proof.
  split.
  - apply (proj1 (extraction_loses_no_text w_indented sample_path)).
    reflexivity.
  - apply (proj2 (extraction_loses_no_text w_indented sample_path)).
    reflexivity.
Defined.

(** X9: when the library raises nowhere, the primary and the secondary
    backend return the empty string exactly when every page text
    consists of whitespace only; a document without pages is such a
    case. *)
Theorem empty_extraction_iff_blank (w : World) (p : pystr) :
  (forall pages,
      pages_of (pdfplumber_open w p (fs w p)) = inl pages ->
      (returns (extract_with_pdfplumber w p) []
       <-> forall t, In (Some t) pages -> forallb isspace t = true)) /\
  (forall texts,
      pages_of (pypdf2_reader w p (fs w p)) = inl texts ->
      (returns (extract_with_pyPDF2 w p) []
       <-> forall t, In t texts -> forallb isspace t = true)).
Proof.
  unfold returns. split.
  - intros pages H.
    rewrite extract_with_pdfplumber_eq. unfold pdfplumber_text.
    rewrite H. simpl snd.
    assert (E : strip (terminated nlnl (visible pages)) = []
                <-> forall t, In (Some t) pages -> forallb isspace t = true).
    { rewrite strip_empty_iff, terminated_all_space. split.
      - intros Hv t Ht. destruct t as [|c t]; trivial.
        apply Hv, in_visible. split; [trivial | discriminate].
      - intros Hp t Ht. apply in_visible in Ht. now apply Hp. }
    split; [intros Hn; apply E; congruence | intros Hb; f_equal; now apply E].
  - intros texts H.
    rewrite extract_with_pyPDF2_eq. unfold pypdf2_text.
    rewrite H. simpl snd.
    assert (E : strip (terminated nlnl texts) = []
                <-> forall t, In t texts -> forallb isspace t = true)
      by now rewrite strip_empty_iff, terminated_all_space.
    split; [intros Hn; apply E; congruence | intros Hb; f_equal; now apply E].
Qed.

Lemma empty_extraction_iff_blank_witness :
  returns (extract_with_pdfplumber w_blank sample_path) [] /\
  returns (extract_with_pyPDF2 w_blank sample_path) [].
Proof.
  split.
  - apply (proj1 (empty_extraction_iff_blank w_blank sample_path)
             [Some (lit " "); None]); [reflexivity|].
    intros t [E | [E | []]]; [|discriminate].
    injection E as <-. reflexivity.
  - apply (proj2 (empty_extraction_iff_blank w_blank sample_path)
             [lit " "; []]); [reflexivity|].
    intros t [<- | [<- | []]]; reflexivity.
Defined.

(** ** Pages *)

Lemma visible_app (a b : list (option pystr)) :
  visible (a ++ b) = visible a ++ visible b.
Proof. unfold visible. apply flat_map_app. Qed.

Lemma visible_some (texts : list pystr) :
  (forall t, In t texts -> t <> []) -> visible (map Some texts) = texts.
Proof.
  induction texts as [|t r IH]; intros H; trivial.
  assert (Ht : t <> []) by (apply H; now left).
  destruct t as [|c t]; [congruence|].
  change (visible (map Some ((c :: t) :: r)))
    with ((c :: t) :: visible (map Some r)).
  rewrite IH; trivial. intros u Hu. apply H. now right.
Qed.

(** X6: a page without text, be it [None] or the empty string, leaves
    no trace in what the primary backend returns: with or without such a
    page among the others the result is the same. *)
Theorem pdfplumber_skips_blank_pages (w1 w2 : World) (p1 p2 : pystr)
  (before after : list (option pystr)) (blank : option pystr) :
  blank = None \/ blank = Some [] ->
  pages_of (pdfplumber_open w1 p1 (fs w1 p1)) = inl (before ++ after) ->
  pages_of (pdfplumber_open w2 p2 (fs w2 p2))
  = inl (before ++ blank :: after) ->
  snd (extract_with_pdfplumber w1 p1) = snd (extract_with_pdfplumber w2 p2).
Proof.
  intros Hb H1 H2.
  rewrite !extract_with_pdfplumber_eq. unfold pdfplumber_text.
  rewrite H1, H2, !visible_app. simpl snd.
  destruct Hb as [-> | ->]; reflexivity.
Qed.

Lemma pdfplumber_skips_blank_pages_witness :
  snd (extract_with_pdfplumber w_short sample_path)
  = snd (extract_with_pdfplumber w_cover_page sample_path).
Proof.
  apply (pdfplumber_skips_blank_pages w_short w_cover_page
           sample_path sample_path [] [Some (lit "Invoice 42")] None).
  - now left.
  - reflexivity.
  - reflexivity.
Defined.

(** X7: when every page text is non-empty and neither starts nor ends
    with whitespace, stripping changes nothing: the primary and the
    secondary backend return the page texts with one blank line between
    them, and so they agree. *)
Theorem clean_pages_are_joined (w : World) (p : pystr)
  (texts : list pystr) :
  (forall t, In t texts ->
             t <> [] /\ starts_with_space t = false /\
             ends_with_space t = false) ->
  (pages_of (pdfplumber_open w p (fs w p)) = inl (map Some texts) ->
   returns (extract_with_pdfplumber w p) (join nlnl texts)) /\
  (pages_of (pypdf2_reader w p (fs w p)) = inl texts ->
   returns (extract_with_pyPDF2 w p) (join nlnl texts)).
Proof.
  intros Hclean.
  assert (Hs : strip (terminated nlnl texts) = join nlnl texts).
  { destruct texts as [|x r]; trivial.
    rewrite terminated_join by discriminate.
    destruct (Hclean x (or_introl eq_refl)) as (Hne & Hst & _).
    apply strip_appended; trivial.
    - now rewrite join_starts.
    - apply join_ends; [discriminate|].
      intros t Ht. destruct (Hclean t Ht) as (? & _ & ?). now split.
    - now apply join_nonempty. }
  unfold returns. split; intros H.
  - rewrite extract_with_pdfplumber_eq. unfold pdfplumber_text.
    rewrite H, visible_some, Hs; trivial.
    intros t Ht. now apply Hclean.
  - rewrite extract_with_pyPDF2_eq. unfold pypdf2_text.
    now rewrite H, Hs.
Qed.

Lemma clean_pages_are_joined_witness :
  returns (extract_with_pdfplumber w_two_pages sample_path)
    (lit "Invoice 42" ++ nlnl ++ lit "Total 10") /\
  returns (extract_with_pyPDF2 w_two_pages sample_path)
    (lit "Invoice 42" ++ nlnl ++ lit "Total 10").
Proof.
  pose proof (clean_pages_are_joined w_two_pages sample_path
                [lit "Invoice 42"; lit "Total 10"]) as H.
  destruct H as [H1 H2].
  - intros t [<- | [<- | []]]; repeat split; discriminate.
  - split; [apply H1 | apply H2]; reflexivity.
Defined.

Lemma content_pages_in (flags : list bool) :
  forall k n,
    In n (content_pages k flags)
    <-> exists i, n = k + i + 1 /\ nth_error flags i = Some true.
Proof.
  induction flags as [|b r IH]; intros k n; simpl.
  - split; [intros [] | intros ([|i] & _ & H); discriminate].
  - rewrite in_app_iff, IH. split.
    + intros [H | (i & -> & Hi)].
      * destruct b; [|destruct H]. destruct H as [<- | []].
        exists 0. split; [lia | reflexivity].
      * exists (S i). split; [lia | exact Hi].
    + intros ([|i] & -> & Hi); simpl in Hi.
      * injection Hi as ->. left. left. lia.
      * right. exists i. split; [lia | exact Hi].
Qed.

Lemma content_pages_sorted (flags : list bool) :
  forall k, StronglySorted lt (content_pages k flags).
Proof.
  induction flags as [|b r IH]; intros k; simpl.
  - constructor.
  - destruct b; simpl; [|apply IH].
    constructor; [apply IH|].
    apply Forall_forall. intros n Hn.
    apply content_pages_in in Hn as (i & -> & _). lia.
Qed.

(** X10: when pikepdf raises nowhere, the lines it returns name exactly
    the pages that have contents, counted from 1, each once and in
    increasing order; without such a page the fixed sentence is
    returned. *)
Theorem pikepdf_lines_follow_pages (w : World) (p : pystr)
  (flags : list bool) :
  pages_of (pikepdf_open w p (fs w p)) = inl flags ->
  exists ns,
    (forall n, In n ns
               <-> exists i, n = i + 1 /\ nth_error flags i = Some true) /\
    StronglySorted lt ns /\
    returns (extract_with_pikepdf w p)
      (match ns with
       | [] => lit "No extractable text found with pikepdf"
       | _ => join nl (map page_line ns)
       end).
Proof.
  intros H. exists (content_pages 0 flags). split; [|split].
  - intros n. apply (content_pages_in flags 0 n).
  - apply content_pages_sorted.
  - unfold returns. rewrite extract_with_pikepdf_eq. unfold pikepdf_text.
    rewrite H. simpl snd. now destruct (content_pages 0 flags).
Qed.

Lemma pikepdf_lines_follow_pages_witness :
  exists ns,
    (forall n, In n ns
               <-> exists i, n = i + 1 /\
                             nth_error [true; false; true] i = Some true) /\
    StronglySorted lt ns /\
    returns (extract_with_pikepdf w_short sample_path)
      (match ns with
       | [] => lit "No extractable text found with pikepdf"
       | _ => join nl (map page_line ns)
       end).
Proof.
  apply (pikepdf_lines_follow_pages w_short sample_path [true; false; true]).
  reflexivity.
Defined.

(** ** The whole run *)

(** X14: for a scanned document, one on which pdfplumber and PyPDF2
    raise nowhere and find whitespace at most, the printed [text] is what
    pikepdf returned, and the three backends are named. *)
Theorem scanned_document_gets_placeholder (w : World) (a p s3 : pystr)
  (pages : list (option pystr)) (texts : list pystr) :
  fs w p <> None ->
  pages_of (pdfplumber_open w p (fs w p)) = inl pages ->
  (forall t, In (Some t) pages -> forallb isspace t = true) ->
  pages_of (pypdf2_reader w p (fs w p)) = inl texts ->
  (forall t, In t texts -> forallb isspace t = true) ->
  returns (extract_with_pikepdf w p) s3 ->
  exists j,
    stdout (run w [a; p]) = [j] /\
    field "text" j = Some (JStr s3) /\
    field "methods_used" j
    = Some (methods_list ["pdfplumber"; "pypdf2"; "pikepdf"]%string).
Proof.
  intros Hf H1 Hb1 H2 Hb2 H3.
  apply returns_pikepdf in H3. subst s3.
  assert (E1 : pdfplumber_text w p = []).
  { unfold pdfplumber_text. rewrite H1.
    apply strip_empty_iff, terminated_all_space.
    intros t Ht. apply in_visible in Ht. now apply Hb1. }
  assert (E2 : pypdf2_text w p = []).
  { unfold pypdf2_text. rewrite H2.
    now apply strip_empty_iff, terminated_all_space. }
  destruct (fs w p) as [n|] eqn:Hn; [clear Hf | congruence].
  destruct (run_found w a p n Hn) as (_ & t & ms & Hout & Hcase).
  rewrite E1, E2 in Hcase.
  destruct Hcase as [(_ & -> & -> & _) | (Hge & _)]; [|simpl in Hge; lia].
  eexists. split; [exact Hout|]. now split.
Qed.

Lemma scanned_document_gets_placeholder_witness :
  exists j,
    stdout (run w_blank [prog; sample_path]) = [j] /\
    field "text" j
    = Some (JStr (lit "No extractable text found with pikepdf")) /\
    field "methods_used" j
    = Some (methods_list ["pdfplumber"; "pypdf2"; "pikepdf"]%string).
Proof.
  apply (scanned_document_gets_placeholder w_blank prog sample_path
           (lit "No extractable text found with pikepdf")
           [Some (lit " "); None] [lit " "; []]).
  - discriminate.
  - reflexivity.
  - intros t [E | [E | []]]; [|discriminate].
    injection E as <-. reflexivity.
  - reflexivity.
  - intros t [<- | [<- | []]]; reflexivity.
  - reflexivity.
Defined.

(** X15: the script never prints more than one document, and a printed
    document is the last thing it does: nothing is written before the
    checks are made and the backends have returned.  It prints none only
    when the existence check raises; it has then opened no library and
    exits with status 1. *)
Theorem one_document_printed_last (w : World) (argv : list pystr) :
  (exists t d, events (run w argv) = t ++ [EvPrint d] /\ printed t = [])
  \/
  (exists a p e,
      argv = [a; p] /\ fs w p = None /\ stat_error w p = Some e /\
      events (run w argv) = [EvExists p] /\
      exit_status (run w argv) = 1%Z).
Proof.
  destruct (argv_cases argv) as [Hlen | (a & p & ->)].
  - left. exists [], usage_error. unfold run. now rewrite main_usage.
  - destruct (fs w p) as [n|] eqn:Hn.
    + left. unfold run. rewrite (main_found w a p n Hn). cbv zeta.
      destruct (len (pdfplumber_text w p) <? 100)%nat.
      * now eexists [_; _; _; _], _.
      * now eexists [_; _], _.
    + destruct (stat_error w p) as [e|] eqn:He.
      * right. exists a, p, e.
        destruct (run_check_raises w a p e Hn He) as [Hx Hev].
        now repeat split.
      * left. unfold run. rewrite (main_missing w a p Hn He).
        now eexists [_], _.
Qed.
